(** * test-langfuse/main.py: a shallow embedding and its contract

    The script assigns four entries of [os.environ], builds one
    OpenAI-compatible client pointed at Anthropic's endpoint, calls
    [client.chat.completions.create] once and prints
    [response.choices[0].message.content].

    The client library is not part of the repository.  Its call
    [chat.completions.create] is a parameter of the model: an oracle
    [respond] that, from the calls the endpoint has already been asked and
    the present call, either raises one of the library's errors or returns a
    response object.  Everything else is the script's own code, embedded
    statement by statement in a state-and-exception monad whose state holds
    the process environment, the log of the calls and the trace of the
    effects performed so far.

    Below the call lies the wire.  The script builds its client without
    [max_retries], so one call may put its request on the wire more than
    once; [create_with_retries] follows the library's retry loop over a
    transport, and [library] turns a transport into an oracle for the
    call. *)

From Stdlib Require Import ZArith.
From stdpp Require Import base option list strings gmap fin_maps.


(** ** Data *)

(** The dict literals of the [messages=] argument: each has exactly the keys
    ["role"] and ["content"]. *)
Module Param.
Record t := mk { role : string; content : string }.
End Param.

(** What [OpenAI(api_key=..., base_url=...)] is given.  [os.environ.get]
    returns [None] for an absent key, hence the option. *)
Record client := { api_key : option string; base_url : string }.

(** One invocation of [client.chat.completions.create(model=, messages=)]. *)
Record api_call := {
  via : client;
  model : string;
  messages : list Param.t
}.

(** The ways the client call can fail, as the library reports them. *)
Inductive api_failure :=
| AuthenticationError
| APIConnectionError
| APIStatusError (status : Z)
| APIResponseValidationError.

Inductive exn :=
| IndexError
| ClientError (f : api_failure)
| ValueError
| OSError
| OpenAIError.

Inductive result (A : Type) :=
| Return (a : A)
| Raise (e : exn).
Arguments Return {A} a.
Arguments Raise {A} e.

(** The effects a run can have, in the order they happen. *)
Inductive event :=
| EvSetenv (k v : string)
| EvOpenAI (c : client)
| EvCreate (q : api_call)
| EvWrite (text : string).

Section Script.

(** The fields of the response that the script never looks at. *)
Context {X : Type}.

(** The response object of the client library, as far as the source reaches
    into it: [choices] is a list, each choice has a [message], each message a
    [content] that the library types as [Optional[str]]. *)
Record ChatCompletionMessage := {
  content : option string;
  message_rest : X
}.

Record Choice := {
  message : ChatCompletionMessage;
  choice_rest : X
}.

Record ChatCompletion := {
  choices : list Choice;
  completion_rest : X
}.

(** [network] logs the calls of [create] the endpoint has been asked, one
    entry for each call; what a call puts on the wire is [wire_of] below. *)
Record state := {
  environ : gmap string string;
  network : list api_call;
  trace : list event
}.

(** The endpoint behind the client: the calls already served, then the
    present one. *)
Variable respond : list api_call -> api_call -> api_failure + ChatCompletion.

(** ** The monad *)

Definition M (A : Type) : Type := state -> result A * state.

Definition raise {A} (e : exn) : M A := fun st => (Raise e, st).

#[global] Instance M_ret : MRet M := fun A a st => (Return a, st).

(** An exception cuts the rest of the sequence short; the effects already
    performed stay. *)
#[global] Instance M_bind : MBind M := fun A B k m st =>
  match m st with
  | (Return a, st') => k a st'
  | (Raise e, st') => (Raise e, st')
  end.

Definition emit (e : event) (st : state) : state :=
  {| environ := environ st; network := network st; trace := trace st ++ [e] |}.

(** ** Primitives *)

Fixpoint has_char (a : Ascii.ascii) (s : string) : bool :=
  match s with
  | EmptyString => false
  | String b s' => if Ascii.eqb a b then true else has_char a s'
  end.

Definition NUL : Ascii.ascii := Ascii.zero.

(** The character [=]. *)
Definition EQUALS : Ascii.ascii := Ascii.ascii_of_nat 61.

(** [os.environ[k] = v].  A NUL byte in the name or in the value, or an [=]
    in the name, is a [ValueError]; an empty name is an [OSError]; in each
    case the mapping stays as it was. *)
Definition environ_set (k v : string) : M unit :=
  fun st =>
    if has_char NUL k || has_char NUL v || has_char EQUALS k then
      (Raise ValueError, st)
    else if String.eqb k "" then
      (Raise OSError, st)
    else
      (Return tt,
       emit (EvSetenv k v)
         {| environ := <[k:=v]> (environ st);
            network := network st;
            trace := trace st |}).

(** [os.environ.get(k)] *)
Definition environ_get (k : string) : M (option string) :=
  fun st => (Return (environ st !! k), st).

(** [OpenAI(api_key=key, base_url=url)].  Given [None] the constructor
    looks for [OPENAI_API_KEY] in the environment; left with no key, or with
    an empty one, it raises and no client exists. *)
Definition OpenAI (key : option string) (url : string) : M client :=
  fun st =>
    let given :=
      match key with
      | Some k => Some k
      | None => environ st !! "OPENAI_API_KEY"
      end in
    match given with
    | None => (Raise OpenAIError, st)
    | Some EmptyString => (Raise OpenAIError, st)
    | Some k =>
        let c := {| api_key := Some k; base_url := url |} in
        (Return c, emit (EvOpenAI c) st)
    end.

(** [c.chat.completions.create(model=m, messages=msgs)]: the call is logged,
    once, and answered.  The requests the call puts on the wire are followed
    by [create_with_retries] below. *)
Definition chat_completions_create
    (c : client) (m : string) (msgs : list Param.t) : M ChatCompletion :=
  fun st =>
    let q := {| via := c; model := m; messages := msgs |} in
    let st' :=
      emit (EvCreate q)
        {| environ := environ st;
           network := network st ++ [q];
           trace := trace st |} in
    match respond (network st) q with
    | inl f => (Raise (ClientError f), st')
    | inr r => (Return r, st')
    end.

(** [l[i]] on a list, for an index that is not negative. *)
Definition getitem {A} (l : list A) (i : nat) : M A :=
  match l !! i with
  | Some a => mret a
  | None => raise IndexError
  end.

Definition newline : string := String (Ascii.ascii_of_nat 10) EmptyString.

(** [str(x)] for [x : Optional[str]]. *)
Definition py_str (x : option string) : string :=
  match x with
  | Some s => s
  | None => "None"
  end.

(** [print(x)]: [str(x)] and the line end go to standard output. *)
Definition print (x : option string) : M unit :=
  fun st => (Return tt, emit (EvWrite (py_str x +:+ newline)) st).

(** ** The script *)

Definition main : M unit :=
  key ← environ_get "ANTHROPIC_API_KEY";
  client ← OpenAI key "https://api.anthropic.com/v1/";
  response ←
    chat_completions_create client "claude-opus-4-20250514"
      [ Param.mk "system" "You are a helpful assistant.";
        Param.mk "user" "Who are you?" ];
  first ← getitem (choices response) 0;
  print (content (message first)).

(** The module's top level; [name] is the value of [__name__].  The three
    [import] statements only bind names ([get_client] and [Anthropic] are
    never used) and take no part in the effects followed here. *)
Definition module_body (name : string) : M unit :=
  environ_set "LANGFUSE_PUBLIC_KEY" "pk-lf..";;
  environ_set "LANGFUSE_SECRET_KEY" "sk-lf-..";;
  environ_set "LANGFUSE_BASE_URL" "http://localhost:3000";;
  environ_set "ANTHROPIC_API_KEY" "sk-..";;
  if String.eqb name "__main__" then main else mret tt.

(** ** A process *)

(** [python main.py] in a process that starts with environment [env0] while
    the network has already served [past]. *)
Definition boot (env0 : gmap string string) (past : list api_call) : state :=
  {| environ := env0; network := past; trace := [] |}.

Definition run (env0 : gmap string string) (past : list api_call)
  : result unit * state :=
  module_body "__main__" (boot env0 past).

(** The interpreter's exit status: an exception nobody catches gives 1. *)
Definition exit_status (r : result unit) : Z :=
  match r with
  | Return _ => 0%Z
  | Raise _ => 1%Z
  end.

(** ** Reading a trace *)

Definition stdout_of (t : list event) : string :=
  foldr (fun e acc => match e with EvWrite s => s +:+ acc | _ => acc end) "" t.

Definition calls_of (t : list event) : list api_call :=
  omap (fun e => match e with EvCreate q => Some q | _ => None end) t.

Definition env_writes_of (t : list event) : list (string * string) :=
  omap (fun e => match e with EvSetenv k v => Some (k, v) | _ => None end) t.

Definition clients_of (t : list event) : list client :=
  omap (fun e => match e with EvOpenAI c => Some c | _ => None end) t.

End Script.

(** ** Sample endpoints and the script's request *)

(** The request the script builds once its own key is in the environment. *)
Definition the_request : api_call :=
  {| via := {| api_key := Some "sk-.."; base_url := "https://api.anthropic.com/v1/" |};
     model := "claude-opus-4-20250514";
     messages := [ Param.mk "system" "You are a helpful assistant.";
                   Param.mk "user" "Who are you?" ] |}.

Definition reply (texts : list (option string)) : @ChatCompletion nat :=
  {| choices :=
       imap (fun i t => {| message := {| content := t; message_rest := i |};
                           choice_rest := i |}) texts;
     completion_rest := length texts |}.

Definition world_ok : list api_call -> api_call -> api_failure + @ChatCompletion nat :=
  fun _ _ => inr (reply [Some "I am Claude."; Some "Second choice."]).

Definition world_denied : list api_call -> api_call -> api_failure + @ChatCompletion nat :=
  fun _ q =>
    match api_key (via q) with
    | Some "sk-ant-valid" => inr (reply [Some "I am Claude."])
    | _ => inl AuthenticationError
    end.

(** The same first choice as [world_ok], alone and under other metadata. *)
Definition world_terse : list api_call -> api_call -> api_failure + @ChatCompletion nat :=
  fun _ _ => inr (reply [Some "I am Claude."]).

Definition world_empty : list api_call -> api_call -> api_failure + @ChatCompletion nat :=
  fun _ _ => inr (reply []).

(** An endpoint whose answer changes with the number of calls it has served. *)
Definition world_counting : list api_call -> api_call -> api_failure + @ChatCompletion nat :=
  fun served _ =>
    match served with
    | [] => inr (reply [Some "first answer"])
    | _ => inr (reply [Some "later answer"])
    end.

(** An environment inherited from a shell that had exported a key of its own. *)
Definition shell_env : gmap string string :=
  <["ANTHROPIC_API_KEY" := "sk-from-shell"]> (<["HOME" := "/root"]> ∅).

(** Two processes started one after the other from the same environment; the
    network keeps its log in between. *)
Definition run_twice {X} (respond : list api_call -> api_call -> api_failure + @ChatCompletion X)
    (env0 : gmap string string) (past : list api_call)
  : (result unit * state) * (result unit * state) :=
  let first := run respond env0 past in
  (first, run respond env0 (network first.2)).

(** A response whose first choice carries no text ([content] is [None]). *)
Definition world_none : list api_call -> api_call -> api_failure + @ChatCompletion nat :=
  fun _ _ => inr (reply [None; Some "Second choice."]).

(** ** Between the call and the wire *)

(** The client is built without [max_retries] (main.py:16-19), so the
    library's default stands: a request that fails in a way the library
    retries is sent again, at most twice. *)
Definition DEFAULT_MAX_RETRIES : nat := 2.

(** What the library retries: a connection that fails, and the statuses
    408, 409, 429 and 500 and above. *)
Definition should_retry (f : api_failure) : bool :=
  match f with
  | APIConnectionError => true
  | APIStatusError status =>
      (status =? 408)%Z || (status =? 409)%Z || (status =? 429)%Z
      || (500 <=? status)%Z
  | AuthenticationError => false
  | APIResponseValidationError => false
  end.

(** One call of [create] over a transport [send], which answers one request
    from the requests already on the wire.  The result is the call's answer
    and the wire afterwards. *)
Fixpoint create_with_retries {X}
    (send : list api_call -> api_call -> api_failure + @ChatCompletion X)
    (retries : nat) (wire : list api_call) (q : api_call)
  : (api_failure + @ChatCompletion X) * list api_call :=
  match send wire q with
  | inr r => (inr r, wire ++ [q])
  | inl f =>
      match retries with
      | S n =>
          if should_retry f
          then create_with_retries send n (wire ++ [q]) q
          else (inl f, wire ++ [q])
      | O => (inl f, wire ++ [q])
      end
  end.

(** The requests on the wire once the given calls have been made, in order,
    on a wire that was silent before. *)
Definition wire_of {X}
    (send : list api_call -> api_call -> api_failure + @ChatCompletion X)
    (calls : list api_call) : list api_call :=
  foldl (fun wire q => (create_with_retries send DEFAULT_MAX_RETRIES wire q).2)
        [] calls.

(** The oracle for the call that a transport gives rise to. *)
Definition library {X}
    (send : list api_call -> api_call -> api_failure + @ChatCompletion X)
  : list api_call -> api_call -> api_failure + @ChatCompletion X :=
  fun calls q =>
    (create_with_retries send DEFAULT_MAX_RETRIES (wire_of send calls) q).1.

(** A transport that answers every request with status 503. *)
Definition always_unavailable
  : list api_call -> api_call -> api_failure + @ChatCompletion nat :=
  fun _ _ => inl (APIStatusError 503).

(** A transport whose connection fails once and that answers from then on. *)
Definition fails_once
  : list api_call -> api_call -> api_failure + @ChatCompletion nat :=
  fun wire _ =>
    match wire with
    | [] => inl APIConnectionError
    | _ => inr (reply [Some "I am Claude."])
    end.

(** A transport that answers the first request at once. *)
Definition answers_at_once
  : list api_call -> api_call -> api_failure + @ChatCompletion nat :=
  fun _ _ => inr (reply [Some "I am Claude."]).

(** States in which [ANTHROPIC_API_KEY] has been removed from the
    environment, without and with an [OPENAI_API_KEY]. *)
Definition st_keyless : state :=
  {| environ := <["HOME" := "/root"]> ∅; network := []; trace := [] |}.

Definition st_other_key : state :=
  {| environ := <["OPENAI_API_KEY" := "sk-openai"]> ∅; network := []; trace := [] |}.

Lemma append_empty_r (s : string) : s +:+ "" = s.
Proof.
  induction s as [|a s IH]; [reflexivity|].
  change (String a (s +:+ "") = String a s). now rewrite IH.
Qed.

Lemma environ_set_stores (k v : string) (st : state) :
  has_char NUL k || has_char NUL v || has_char EQUALS k = false ->
  String.eqb k "" = false ->
  environ_set k v st =
    (Return tt,
     {| environ := <[k:=v]> (environ st);
        network := network st;
        trace := trace st ++ [EvSetenv k v] |}).
Proof. intros H1 H2. unfold environ_set. now rewrite H1, H2. Qed.

Section MainSteps.

Context {X : Type}.
Variable respond : list api_call -> api_call -> api_failure + @ChatCompletion X.

Lemma main_steps (st : state) (k : string) :
  environ st !! "ANTHROPIC_API_KEY" = Some k ->
  k <> "" ->
  main respond st =
    let c := {| api_key := Some k;
                base_url := "https://api.anthropic.com/v1/" |} in
    let q := {| via := c; model := "claude-opus-4-20250514";
                messages := [ Param.mk "system" "You are a helpful assistant.";
                              Param.mk "user" "Who are you?" ] |} in
    let st1 := {| environ := environ st;
                  network := network st ++ [q];
                  trace := (trace st ++ [EvOpenAI c]) ++ [EvCreate q] |} in
    match respond (network st) q with
    | inl f => (Raise (ClientError f), st1)
    | inr r =>
        match choices r with
        | [] => (Raise IndexError, st1)
        | first :: _ =>
            (Return tt, emit (EvWrite (py_str (content (message first)) +:+ newline)) st1)
        end
    end.
Proof.
  intros Hk Hne.
  unfold main, mbind, M_bind, environ_get, OpenAI, chat_completions_create.
  cbn. rewrite Hk. destruct k as [|a k]; [done|]. cbn.
  destruct (respond _ _) as [f|r]; [reflexivity|].
  unfold getitem. destruct (choices r) as [|first rest]; reflexivity.
Qed.

Lemma main_environ (st : state) :
  environ (main respond st).2 = environ st.
Proof.
  unfold main, mbind, M_bind, environ_get, OpenAI, chat_completions_create.
  cbn.
  destruct (environ st !! "ANTHROPIC_API_KEY") as [[|a k]|];
    [reflexivity| |destruct (environ st !! "OPENAI_API_KEY") as [[|a k]|];
                   [reflexivity| |reflexivity]];
    cbn; (destruct (respond _ _) as [f|r]; [reflexivity|]);
    unfold getitem; destruct (choices r); reflexivity.
Qed.

End MainSteps.

Section Contract.

Context {X : Type}.
Variable respond : list api_call -> api_call -> api_failure + @ChatCompletion X.

Lemma module_body_steps (name : string) (st : state) :
  module_body respond name st =
    let st4 :=
      {| environ :=
           <["ANTHROPIC_API_KEY" := "sk-.."]>
             (<["LANGFUSE_BASE_URL" := "http://localhost:3000"]>
                (<["LANGFUSE_SECRET_KEY" := "sk-lf-.."]>
                   (<["LANGFUSE_PUBLIC_KEY" := "pk-lf.."]> (environ st))));
         network := network st;
         trace := trace st ++
                  [ EvSetenv "LANGFUSE_PUBLIC_KEY" "pk-lf..";
                    EvSetenv "LANGFUSE_SECRET_KEY" "sk-lf-..";
                    EvSetenv "LANGFUSE_BASE_URL" "http://localhost:3000";
                    EvSetenv "ANTHROPIC_API_KEY" "sk-.." ] |} in
    if String.eqb name "__main__" then main respond st4 else (Return tt, st4).
Proof.
  unfold module_body, mbind, M_bind.
  rewrite !environ_set_stores by reflexivity. cbn.
  rewrite <- !app_assoc. cbn.
  destruct (String.eqb name "__main__"); reflexivity.
Qed.

Lemma run_steps (env0 : gmap string string) (past : list api_call) :
  run respond env0 past =
    let st1 :=
      {| environ :=
           <["ANTHROPIC_API_KEY" := "sk-.."]>
             (<["LANGFUSE_BASE_URL" := "http://localhost:3000"]>
                (<["LANGFUSE_SECRET_KEY" := "sk-lf-.."]>
                   (<["LANGFUSE_PUBLIC_KEY" := "pk-lf.."]> env0)));
         network := past ++ [the_request];
         trace := [ EvSetenv "LANGFUSE_PUBLIC_KEY" "pk-lf..";
                    EvSetenv "LANGFUSE_SECRET_KEY" "sk-lf-..";
                    EvSetenv "LANGFUSE_BASE_URL" "http://localhost:3000";
                    EvSetenv "ANTHROPIC_API_KEY" "sk-..";
                    EvOpenAI (via the_request);
                    EvCreate the_request ] |} in
    match respond past the_request with
    | inl f => (Raise (ClientError f), st1)
    | inr r =>
        match choices r with
        | [] => (Raise IndexError, st1)
        | first :: _ =>
            (Return tt, emit (EvWrite (py_str (content (message first)) +:+ newline)) st1)
        end
    end.
Proof.
  unfold run. rewrite module_body_steps. cbn -[main].
  rewrite (main_steps _ _ "sk-..") by (apply lookup_insert_eq || done).
  reflexivity.
Qed.

(** ** Shared facts about a run *)

Lemma run_calls (env0 : gmap string string) (past : list api_call) :
  calls_of (trace (run respond env0 past).2) = [the_request] /\
  clients_of (trace (run respond env0 past).2) = [via the_request] /\
  network (run respond env0 past).2 = past ++ [the_request].
Proof.
  rewrite run_steps. cbn zeta.
  destruct (respond past the_request) as [f|r]; [|destruct (choices r)];
    cbn; auto.
Qed.

Lemma run_prints (env0 : gmap string string) (past : list api_call)
    (r : ChatCompletion) (c : Choice) (rest : list Choice) :
  respond past the_request = inr r ->
  choices r = c :: rest ->
  (run respond env0 past).1 = Return tt /\
  stdout_of (trace (run respond env0 past).2) =
    py_str (content (message c)) +:+ newline.
Proof.
  intros Hr Hc. rewrite run_steps. cbn zeta. rewrite Hr, Hc. cbn.
  rewrite append_empty_r. auto.
Qed.

(** ** Output *)

(** C1. When the endpoint returns a response whose [choices] has a first
    entry with a string [content], the run ends normally with exit status 0
    and standard output holds that string followed by the line end of
    [print], and nothing else. *)
Theorem C1_prints_first_choice_content
    (env0 : gmap string string) (past : list api_call)
    (r : ChatCompletion) (c : Choice) (rest : list Choice) (s : string) :
  respond past the_request = inr r ->
  choices r = c :: rest ->
  content (message c) = Some s ->
  (run respond env0 past).1 = Return tt /\
  exit_status (run respond env0 past).1 = 0%Z /\
  stdout_of (trace (run respond env0 past).2) = s +:+ newline.
Proof.
  intros Hr Hc Hs.
  destruct (run_prints env0 past r c rest Hr Hc) as [Hres Hout].
  rewrite Hres, Hout, Hs. auto.
Qed.

(** ** Failures *)

(** C3. Whatever failure the client call reports, the run ends with that
    error unhandled, the exit status is 1, not 0, and nothing was written to
    standard output. *)
Theorem C3_client_failure_propagates
    (env0 : gmap string string) (past : list api_call) (f : api_failure) :
  respond past the_request = inl f ->
  (run respond env0 past).1 = Raise (ClientError f) /\
  exit_status (run respond env0 past).1 = 1%Z /\
  exit_status (run respond env0 past).1 <> 0%Z /\
  stdout_of (trace (run respond env0 past).2) = "".
Proof.
  intros Hf. rewrite run_steps. cbn zeta. rewrite Hf. cbn.
  repeat split. discriminate.
Qed.

(** C4. When the response has an empty [choices], [choices[0]] raises
    [IndexError], which nothing catches: the run ends abnormally and
    standard output stays empty. *)
Theorem C4_empty_choices_index_error
    (env0 : gmap string string) (past : list api_call) (r : ChatCompletion) :
  respond past the_request = inr r ->
  choices r = [] ->
  (run respond env0 past).1 = Raise IndexError /\
  exit_status (run respond env0 past).1 = 1%Z /\
  stdout_of (trace (run respond env0 past).2) = "".
Proof.
  intros Hr Hc. rewrite run_steps. cbn zeta. rewrite Hr, Hc. cbn. auto.
Qed.

(** ** Configuration *)

(** C6. The run begins with four assignments to [os.environ], one for each
    of the four names, each with a string; the client is constructed only
    after them; no later step assigns to [os.environ]; so at the end the four
    names hold the script's values and every other name holds what the
    process started with. *)
Theorem C6_bootstrap_writes_four_once
    (env0 : gmap string string) (past : list api_call) :
  (exists c rest,
     trace (run respond env0 past).2 =
       [ EvSetenv "LANGFUSE_PUBLIC_KEY" "pk-lf..";
         EvSetenv "LANGFUSE_SECRET_KEY" "sk-lf-..";
         EvSetenv "LANGFUSE_BASE_URL" "http://localhost:3000";
         EvSetenv "ANTHROPIC_API_KEY" "sk-.." ] ++ EvOpenAI c :: rest /\
     env_writes_of rest = [] /\
     clients_of rest = []) /\
  env_writes_of (trace (run respond env0 past).2) =
    [ ("LANGFUSE_PUBLIC_KEY", "pk-lf..");
      ("LANGFUSE_SECRET_KEY", "sk-lf-..");
      ("LANGFUSE_BASE_URL", "http://localhost:3000");
      ("ANTHROPIC_API_KEY", "sk-..") ] /\
  NoDup (env_writes_of (trace (run respond env0 past).2)).*1 /\
  environ (run respond env0 past).2 =
    <["ANTHROPIC_API_KEY" := "sk-.."]>
      (<["LANGFUSE_BASE_URL" := "http://localhost:3000"]>
         (<["LANGFUSE_SECRET_KEY" := "sk-lf-.."]>
            (<["LANGFUSE_PUBLIC_KEY" := "pk-lf.."]> env0))) /\
  (forall k : string,
     k ∉ [ "LANGFUSE_PUBLIC_KEY"; "LANGFUSE_SECRET_KEY";
           "LANGFUSE_BASE_URL"; "ANTHROPIC_API_KEY" ] ->
     environ (run respond env0 past).2 !! k = env0 !! k).
Proof.
  assert (environ (run respond env0 past).2 =
          <["ANTHROPIC_API_KEY" := "sk-.."]>
            (<["LANGFUSE_BASE_URL" := "http://localhost:3000"]>
               (<["LANGFUSE_SECRET_KEY" := "sk-lf-.."]>
                  (<["LANGFUSE_PUBLIC_KEY" := "pk-lf.."]> env0)))) as Henv.
  { unfold run. rewrite module_body_steps. cbn -[main].
    now rewrite main_environ. }
  assert (exists tail,
            trace (run respond env0 past).2 =
              [ EvSetenv "LANGFUSE_PUBLIC_KEY" "pk-lf..";
                EvSetenv "LANGFUSE_SECRET_KEY" "sk-lf-..";
                EvSetenv "LANGFUSE_BASE_URL" "http://localhost:3000";
                EvSetenv "ANTHROPIC_API_KEY" "sk-..";
                EvOpenAI (via the_request) ] ++ tail /\
            env_writes_of tail = [] /\ clients_of tail = []) as (tail & Ht & Hw & Hc).
  { rewrite run_steps. cbn zeta.
    destruct (respond past the_request) as [f|r]; [|destruct (choices r)];
      cbn; eexists; (split; [reflexivity|]); cbn; auto. }
  split_and!.
  - exists (via the_request), tail. auto.
  - rewrite Ht. unfold env_writes_of in *. rewrite omap_app, Hw. reflexivity.
  - rewrite Ht. unfold env_writes_of in *. rewrite omap_app, Hw. cbn.
    apply (bool_decide_unpack _). vm_compute. reflexivity.
  - exact Henv.
  - intros k Hk. rewrite Henv.
    rewrite !lookup_insert_ne; [reflexivity|..]; intros <-; apply Hk; set_solver.
Qed.

(** C10. Once the module's top level has run, under any [__name__] and so
    in every run of the script, [LANGFUSE_BASE_URL] holds the literal
    [http://localhost:3000], a local address. *)
Theorem C10_langfuse_base_url_is_localhost
    (name : string) (env0 : gmap string string) (past : list api_call) :
  environ (module_body respond name (boot env0 past)).2 !! "LANGFUSE_BASE_URL"
    = Some "http://localhost:3000" /\
  environ (run respond env0 past).2 !! "LANGFUSE_BASE_URL"
    = Some "http://localhost:3000" /\
  String.prefix "http://localhost" "http://localhost:3000" = true.
Proof.
  assert (forall n,
            environ (module_body respond n (boot env0 past)).2
              !! "LANGFUSE_BASE_URL" = Some "http://localhost:3000") as H.
  { intros n. rewrite module_body_steps. cbn -[main].
    destruct (String.eqb n "__main__"); [rewrite main_environ|]; cbn;
      (rewrite lookup_insert_ne by done); apply lookup_insert_eq. }
  split_and!; [apply H | apply H | reflexivity].
Qed.

(** ** Requests *)

(** C8. The one client of a run is built with Anthropic's endpoint as its
    base URL, and the one call of the run goes through that client. *)
Theorem C8_request_targets_anthropic
    (env0 : gmap string string) (past : list api_call) :
  exists c q,
    clients_of (trace (run respond env0 past).2) = [c] /\
    calls_of (trace (run respond env0 past).2) = [q] /\
    via q = c /\
    base_url c = "https://api.anthropic.com/v1/".
Proof.
  destruct (run_calls env0 past) as (Hca & Hcl & _).
  exists (via the_request), the_request. auto.
Qed.

End Contract.

(** ** Dependence of the output on the response *)

(** C9. Two runs, against any two endpoints and from any two environments,
    whose responses both have a first choice and agree on its
    [message.content], write the same text to standard output, whatever
    else the responses hold. *)
Theorem C9_stdout_depends_only_on_first_content
    {X : Type}
    (respond1 respond2 : list api_call -> api_call -> api_failure + @ChatCompletion X)
    (env1 env2 : gmap string string) (past1 past2 : list api_call)
    (r1 r2 : @ChatCompletion X) (c1 c2 : @Choice X) (rest1 rest2 : list (@Choice X)) :
  respond1 past1 the_request = inr r1 ->
  respond2 past2 the_request = inr r2 ->
  choices r1 = c1 :: rest1 ->
  choices r2 = c2 :: rest2 ->
  content (message c1) = content (message c2) ->
  stdout_of (trace (run respond1 env1 past1).2) =
  stdout_of (trace (run respond2 env2 past2).2).
Proof.
  intros H1 H2 Hc1 Hc2 Heq.
  destruct (run_prints respond1 env1 past1 r1 c1 rest1 H1 Hc1) as [_ ->].
  destruct (run_prints respond2 env2 past2 r2 c2 rest2 H2 Hc2) as [_ ->].
  now rewrite Heq.
Qed.

(** ** The key *)

Section Key.

Context {X : Type}.
Variable respond : list api_call -> api_call -> api_failure + @ChatCompletion X.



End Key.

(** ** Calls and requests *)

Section Wire.

Context {X : Type}.
Variable send : list api_call -> api_call -> api_failure + @ChatCompletion X.

Lemma create_with_retries_wire (n : nat) (wire : list api_call) (q : api_call) :
  exists k,
    (create_with_retries send n wire q).2 = wire ++ replicate k q /\
    1 <= k <= S n.
Proof.
  revert wire. induction n as [|n IH]; intros wire; cbn.
  - exists 1. destruct (send wire q); cbn; split; auto.
  - destruct (send wire q) as [f|r]; [destruct (should_retry f)|].
    + destruct (IH (wire ++ [q])) as (k & Hk & Hle).
      exists (S k). rewrite Hk, <- app_assoc. cbn. split; [reflexivity|lia].
    + exists 1. cbn. split; [reflexivity|lia].
    + exists 1. cbn. split; [reflexivity|lia].
Qed.

Lemma create_with_retries_answered
    (n : nat) (wire : list api_call) (q : api_call) (r : ChatCompletion) :
  send wire q = inr r ->
  create_with_retries send n wire q = (inr r, wire ++ [q]).
Proof. intros Hr. destruct n; cbn; now rewrite Hr. Qed.

Lemma wire_of_snoc (calls : list api_call) (q : api_call) :
  wire_of send (calls ++ [q]) =
    (create_with_retries send DEFAULT_MAX_RETRIES (wire_of send calls) q).2.
Proof. unfold wire_of. now rewrite foldl_app. Qed.

Lemma wire_of_call (calls : list api_call) (q : api_call) :
  exists n,
    wire_of send (calls ++ [q]) = wire_of send calls ++ replicate n q /\
    1 <= n <= 3 /\
    (forall r, send (wire_of send calls) q = inr r -> n = 1).
Proof.
  rewrite wire_of_snoc.
  destruct (send (wire_of send calls) q) as [f|r] eqn:Hs.
  - destruct (create_with_retries_wire DEFAULT_MAX_RETRIES (wire_of send calls) q)
      as (k & Hk & Hle).
    exists k. split_and!; [exact Hk | lia | unfold DEFAULT_MAX_RETRIES in Hle; lia
                          | intros; discriminate].
  - exists 1. rewrite (create_with_retries_answered _ _ _ r Hs).
    split_and!; [reflexivity | lia | lia | reflexivity].
Qed.

(** C2, as amended.  Every run makes exactly one call of
    [chat.completions.create], with the model name and the two messages of
    the source, in order.  The client keeps the library's two retries, so
    the call puts that request on the wire at least once and at most three
    times, and exactly once when the first attempt is answered.  When the
    call returns a first choice with string content, standard output is
    that string, unchanged, followed by the line end that [print] writes. *)
Theorem C2_one_call_up_to_three_requests
    (env0 : gmap string string) (past : list api_call) :
  exists q n,
    calls_of (trace (run (library send) env0 past).2) = [q] /\
    model q = "claude-opus-4-20250514" /\
    messages q = [ Param.mk "system" "You are a helpful assistant.";
                   Param.mk "user" "Who are you?" ] /\
    wire_of send (past ++ calls_of (trace (run (library send) env0 past).2)) =
      wire_of send past ++ replicate n q /\
    1 <= n <= 3 /\
    (forall r, send (wire_of send past) q = inr r -> n = 1) /\
    forall r c rest s,
      library send past q = inr r ->
      choices r = c :: rest ->
      content (message c) = Some s ->
      (run (library send) env0 past).1 = Return tt /\
      stdout_of (trace (run (library send) env0 past).2) = s +:+ newline.
Proof.
  destruct (run_calls (library send) env0 past) as (Hcalls & _ & _).
  destruct (wire_of_call past the_request) as (n & Hw & Hle & Hone).
  exists the_request, n. rewrite Hcalls.
  split_and!; [reflexivity | reflexivity | reflexivity | exact Hw
              | lia | lia | exact Hone | ].
  intros r c rest s Hr Hc Hs.
  destruct (run_prints (library send) env0 past r c rest Hr Hc) as [Hres Hout].
  rewrite Hout, Hs. auto.
Qed.

(** C7, as amended.  Two runs from the same environment make two calls of
    [create], one in each run, and nothing is kept from the first run: the
    second run prints what its own call returns.  Each call puts its
    request on the wire at least once and at most three times, since the
    client keeps the library's two retries. *)
Theorem C7_two_runs_two_calls_with_retries
    (env0 : gmap string string) (past : list api_call) :
  let both := run_twice (library send) env0 past in
  calls_of (trace both.1.2) = [the_request] /\
  calls_of (trace both.2.2) = [the_request] /\
  (exists n1 n2,
     1 <= n1 <= 3 /\ 1 <= n2 <= 3 /\
     wire_of send (past ++ calls_of (trace both.1.2)) =
       wire_of send past ++ replicate n1 the_request /\
     wire_of send (past ++ calls_of (trace both.1.2) ++ calls_of (trace both.2.2)) =
       wire_of send past ++ replicate n1 the_request ++ replicate n2 the_request) /\
  forall r c rest,
    library send (past ++ [the_request]) the_request = inr r ->
    choices r = c :: rest ->
    both.2.1 = Return tt /\
    stdout_of (trace both.2.2) = py_str (content (message c)) +:+ newline.
Proof.
  unfold run_twice. cbn.
  destruct (run_calls (library send) env0 past) as (Hca1 & _ & Hn1).
  rewrite Hn1.
  destruct (run_calls (library send) env0 (past ++ [the_request])) as (Hca2 & _ & _).
  rewrite Hca1, Hca2.
  split_and!; try done.
  - destruct (wire_of_call past the_request) as (n1 & Hw1 & Hle1 & _).
    destruct (wire_of_call (past ++ [the_request]) the_request)
      as (n2 & Hw2 & Hle2 & _).
    exists n1, n2. split_and!; try lia; [exact Hw1|].
    rewrite app_assoc, Hw2, Hw1, <- app_assoc. reflexivity.
  - intros r c rest Hr Hc.
    now apply run_prints with (r := r) (rest := rest).
Qed.

End Wire.

(** ** The theorems at concrete endpoints *)

Lemma C1_witness :
  world_ok [] the_request = inr (reply [Some "I am Claude."; Some "Second choice."]) /\
  (run world_ok shell_env []).1 = Return tt /\
  exit_status (run world_ok shell_env []).1 = 0%Z /\
  stdout_of (trace (run world_ok shell_env []).2) = "I am Claude." +:+ newline.
Proof.
  split; [reflexivity|].
  eapply (C1_prints_first_choice_content world_ok shell_env []); reflexivity.
Defined.

Lemma C3_witness :
  world_denied [] the_request = inl AuthenticationError /\
  (run world_denied shell_env []).1 = Raise (ClientError AuthenticationError) /\
  exit_status (run world_denied shell_env []).1 = 1%Z /\
  exit_status (run world_denied shell_env []).1 <> 0%Z /\
  stdout_of (trace (run world_denied shell_env []).2) = "".
Proof.
  split; [reflexivity|].
  apply (C3_client_failure_propagates world_denied shell_env []). reflexivity.
Defined.

Lemma C4_witness :
  world_empty [] the_request = inr (reply []) /\
  (run world_empty ∅ []).1 = Raise IndexError /\
  exit_status (run world_empty ∅ []).1 = 1%Z /\
  stdout_of (trace (run world_empty ∅ []).2) = "".
Proof.
  split; [reflexivity|].
  apply (C4_empty_choices_index_error world_empty ∅ [] (reply [])); reflexivity.
Defined.

Lemma C6_witness :
  environ (run world_ok shell_env []).2 !! "HOME" = Some "/root".
Proof.
  destruct (C6_bootstrap_writes_four_once world_ok shell_env [])
    as (_ & _ & _ & _ & Hother).
  rewrite Hother; [reflexivity|].
  apply (bool_decide_unpack _). vm_compute. reflexivity.
Defined.

Lemma C2_counterexample :
  wire_of always_unavailable
    (calls_of (trace (run (library always_unavailable) shell_env []).2)) =
    [the_request; the_request; the_request] /\
  world_ok [] the_request = inr (reply [Some "I am Claude."; Some "Second choice."]) /\
  (run world_ok shell_env []).1 = Return tt /\
  stdout_of (trace (run world_ok shell_env []).2) <> "I am Claude.".
Proof.
  split_and!; [reflexivity | reflexivity | reflexivity | ].
  vm_compute. discriminate.
Defined.

Lemma C2_witness :
  wire_of fails_once (calls_of (trace (run (library fails_once) shell_env []).2)) =
    [the_request; the_request] /\
  (run (library fails_once) shell_env []).1 = Return tt /\
  stdout_of (trace (run (library fails_once) shell_env []).2) =
    "I am Claude." +:+ newline.
Proof.
  split; [reflexivity|].
  destruct (C2_one_call_up_to_three_requests fails_once shell_env [])
    as (q & n & Hcalls & _ & _ & _ & _ & _ & Hout).
  injection Hcalls as <-.
  eapply Hout; reflexivity.
Defined.



Lemma C7_counterexample :
  (run (library fails_once) shell_env []).1 = Return tt /\
  calls_of (trace (run (library fails_once) shell_env []).2) = [the_request] /\
  wire_of fails_once (calls_of (trace (run (library fails_once) shell_env []).2)) =
    [the_request; the_request].
Proof. split_and!; reflexivity. Defined.

Lemma C7_witness :
  stdout_of (trace (run_twice (library world_counting) ∅ []).1.2) =
    "first answer" +:+ newline /\
  stdout_of (trace (run_twice (library world_counting) ∅ []).2.2) =
    "later answer" +:+ newline.
Proof.
  split; [reflexivity|].
  destruct (C7_two_runs_two_calls_with_retries world_counting ∅ [])
    as (_ & _ & _ & Hsecond).
  destruct (Hsecond (reply [Some "later answer"]) _ _ eq_refl eq_refl) as [_ Hout].
  exact Hout.
Defined.

Lemma C9_witness :
  world_ok [] the_request <> world_terse [the_request] the_request /\
  stdout_of (trace (run world_ok ∅ []).2) =
  stdout_of (trace (run world_terse shell_env [the_request]).2).
Proof.
  split; [discriminate|].
  eapply (C9_stdout_depends_only_on_first_content
            world_ok world_terse ∅ shell_env [] [the_request]); reflexivity.
Defined.

(** ** Further properties of the script *)

Section Beyond.

Context {X : Type}.
Variable respond : list api_call -> api_call -> api_failure + @ChatCompletion X.

Lemma line_not_empty (s : string) : s +:+ newline <> "".
Proof. destruct s; discriminate. Qed.

(** X1. Under any [__name__] other than ["__main__"] (the module is
    imported, not run) the top level ends normally having only assigned the
    four environment entries: no client is constructed, no call reaches the
    network and nothing is printed. *)
Theorem import_only_sets_environment
    (name : string) (env0 : gmap string string) (past : list api_call) :
  name <> "__main__" ->
  (module_body respond name (boot env0 past)).1 = Return tt /\
  clients_of (trace (module_body respond name (boot env0 past)).2) = [] /\
  calls_of (trace (module_body respond name (boot env0 past)).2) = [] /\
  stdout_of (trace (module_body respond name (boot env0 past)).2) = "" /\
  network (module_body respond name (boot env0 past)).2 = past /\
  environ (module_body respond name (boot env0 past)).2 =
    <["ANTHROPIC_API_KEY" := "sk-.."]>
      (<["LANGFUSE_BASE_URL" := "http://localhost:3000"]>
         (<["LANGFUSE_SECRET_KEY" := "sk-lf-.."]>
            (<["LANGFUSE_PUBLIC_KEY" := "pk-lf.."]> env0))).
Proof.
  intros Hname. rewrite module_body_steps. cbn zeta.
  apply String.eqb_neq in Hname. rewrite Hname. cbn. auto 10.
Qed.


(** X3. A first choice whose [content] is [None] is not an error for the
    script: [print] writes the text [None] as a line and the run exits 0. *)
Theorem none_content_prints_None
    (env0 : gmap string string) (past : list api_call)
    (r : ChatCompletion) (c : Choice) (rest : list Choice) :
  respond past the_request = inr r ->
  choices r = c :: rest ->
  content (message c) = None ->
  (run respond env0 past).1 = Return tt /\
  exit_status (run respond env0 past).1 = 0%Z /\
  stdout_of (trace (run respond env0 past).2) = "None" +:+ newline.
Proof.
  intros Hr Hc Hn.
  destruct (run_prints respond env0 past r c rest Hr Hc) as [Hres Hout].
  rewrite Hres, Hout, Hn. auto.
Qed.

(** X6. The environment a run leaves behind is stable under the script: a
    process that inherits it and runs the script again, against any network
    history, ends with the very same environment. *)
Theorem bootstrap_environment_is_stable
    (env0 : gmap string string) (past past' : list api_call) :
  environ (run respond (environ (run respond env0 past).2) past').2 =
  environ (run respond env0 past).2.
Proof.
  assert (forall e p,
            environ (run respond e p).2 =
              <["ANTHROPIC_API_KEY" := "sk-.."]>
                (<["LANGFUSE_BASE_URL" := "http://localhost:3000"]>
                   (<["LANGFUSE_SECRET_KEY" := "sk-lf-.."]>
                      (<["LANGFUSE_PUBLIC_KEY" := "pk-lf.."]> e)))) as Henv.
  { intros e p. unfold run. rewrite module_body_steps. cbn -[main].
    now rewrite main_environ. }
  rewrite (Henv _ past'), (Henv env0 past).
  apply map_eq. intros k. rewrite !lookup_insert.
  repeat case_decide; done.
Qed.

(** X7. [main] with no [ANTHROPIC_API_KEY] in the environment.
    [os.environ.get] gives [None] without an error and the constructor is
    left to find a key.  With no [OPENAI_API_KEY] either, it raises: [main]
    ends with that error and has built no client, made no call and printed
    nothing.  With a non-empty [OPENAI_API_KEY], the client is built with
    that key and the call to Anthropic's endpoint goes through it. *)
Theorem main_without_anthropic_key (st : state) :
  environ st !! "ANTHROPIC_API_KEY" = None ->
  (environ st !! "OPENAI_API_KEY" = None ->
   main respond st = (Raise OpenAIError, st)) /\
  (forall k : string,
     environ st !! "OPENAI_API_KEY" = Some k ->
     k <> "" ->
     exists rest,
       trace (main respond st).2 =
         trace st ++
         EvOpenAI {| api_key := Some k;
                     base_url := "https://api.anthropic.com/v1/" |} ::
         EvCreate {| via := {| api_key := Some k;
                               base_url := "https://api.anthropic.com/v1/" |};
                     model := "claude-opus-4-20250514";
                     messages := [ Param.mk "system" "You are a helpful assistant.";
                                   Param.mk "user" "Who are you?" ] |} ::
         rest /\
       calls_of rest = [] /\ clients_of rest = []).
Proof.
  intros Hnone. split.
  - intros Hother.
    unfold main, mbind, M_bind, environ_get, OpenAI. cbn.
    now rewrite Hnone, Hother.
  - intros k Hother Hne.
    unfold main, mbind, M_bind, environ_get, OpenAI, chat_completions_create.
    cbn. rewrite Hnone, Hother. destruct k as [|a k]; [done|]. cbn.
    destruct (respond _ _) as [f|r]; cbn.
    + exists []. rewrite <- app_assoc. auto.
    + unfold getitem. destruct (choices r) as [|c ?]; cbn.
      * exists []. rewrite <- app_assoc. auto.
      * eexists [_]. rewrite <- !app_assoc. auto.
Qed.

End Beyond.

Lemma import_only_sets_environment_witness :
  calls_of (trace (module_body world_ok "main" (boot shell_env [])).2) = [] /\
  stdout_of (trace (module_body world_ok "main" (boot shell_env [])).2) = "".
Proof.
  assert ("main" <> "__main__") as Hname by discriminate.
  destruct (import_only_sets_environment world_ok "main" shell_env [] Hname)
    as (_ & _ & Hcalls & Hout & _).
  split; assumption.
Defined.

Lemma none_content_prints_None_witness :
  (run world_none shell_env []).1 = Return tt /\
  exit_status (run world_none shell_env []).1 = 0%Z /\
  stdout_of (trace (run world_none shell_env []).2) = "None" +:+ newline.
Proof.
  eapply (none_content_prints_None world_none shell_env []); reflexivity.
Defined.


Lemma main_without_anthropic_key_witness :
  main world_ok st_keyless = (Raise OpenAIError, st_keyless) /\
  clients_of (trace (main world_ok st_other_key).2) =
    [ {| api_key := Some "sk-openai"; base_url := "https://api.anthropic.com/v1/" |} ].
Proof.
  split.
  - apply (proj1 (main_without_anthropic_key world_ok st_keyless eq_refl)).
    reflexivity.
  - assert ("sk-openai" <> "") as Hne by discriminate.
    destruct (proj2 (main_without_anthropic_key world_ok st_other_key eq_refl)
                "sk-openai" eq_refl Hne) as (rest & Ht & _ & Hcl).
    rewrite Ht. unfold clients_of in *. rewrite omap_app. cbn.
    now rewrite Hcl.
Defined.
